(** * sqlakeyset.nulls: NULL ordering for keyset pagination

    A shallow embedding of [sqlakeyset/nulls.py] and the properties of its
    three functions: [is_nulls_last_default] (the per-dialect NULL ordering
    policy), [build_comparison] (the comparator-term builder) and
    [_might_be_nullable] (the nullability advisor).

    Python values are embedded as the inductive [pyobj]; exceptions as the
    sum type [result]; the [warnings.warn] channel as a log threaded through
    the state-and-exception monad [Eff]. SQLAlchemy expression constructors
    ([case], [cast], [== None]) are embedded as the constructors of [term]. *)

From Stdlib Require Import ZArith String List.
From stdpp Require Import base option list gmap strings.

#[local] Set Warnings "-register-all".
#[local] Open Scope string_scope.
#[local] Open Scope Z_scope.

(** ** Python runtime: exceptions, values, attribute access, subscripting *)

Inductive exn : Type :=
  | AttributeError
  | IndexError
  | KeyError
  | TypeError
  | ValueError.

Inductive result (A : Type) : Type :=
  | Ok (a : A)
  | Raise (e : exn).
Arguments Ok {A} a.
Arguments Raise {A} e.

#[global] Instance result_ret : MRet result := fun A a => Ok a.
#[global] Instance result_bind : MBind result := fun A B f m =>
  match m with
  | Ok a => f a
  | Raise e => Raise e
  end.
#[global] Instance result_fmap : FMap result := fun A B f m =>
  match m with
  | Ok a => Ok (f a)
  | Raise e => Raise e
  end.

(** [try: body / except <caught>: handler]. *)
Definition try_except {A : Type} (body : result A) (caught : exn -> bool)
    (handler : result A) : result A :=
  match body with
  | Ok a => Ok a
  | Raise e => if caught e then handler else Raise e
  end.

(** The Python values a caller can hand to this module. An instance of a
    user class is [PObject] with its data attributes; it defines neither
    [__bool__], [__len__] nor [__getitem__]. *)
Inductive pyobj : Type :=
  | PNone
  | PBool (b : bool)
  | PInt (z : Z)
  | PStr (s : string)
  | PList (items : list pyobj)
  | PDict (entries : gmap Z pyobj)
  | PObject (attrs : gmap string pyobj).

(** [v is None]. *)
Definition is_None (v : pyobj) : bool :=
  match v with
  | PNone => true
  | _ => false
  end.

(** Truth value testing, as [if v:] and [not v] do it. *)
Definition truthy (v : pyobj) : bool :=
  match v with
  | PNone => false
  | PBool b => b
  | PInt z => negb (z =? 0)
  | PStr s => negb (String.eqb s "")
  | PList items => match items with [] => false | _ :: _ => true end
  | PDict entries => negb (Nat.eqb (size entries) 0)
  | PObject _ => true
  end.

(** [o.name] for the data attributes this module reads ([nullable],
    [property], [columns]): none of the builtin types has them. *)
Definition getattr (o : pyobj) (name : string) : result pyobj :=
  match o with
  | PObject attrs =>
      match attrs !! name with
      | Some v => Ok v
      | None => Raise AttributeError
      end
  | _ => Raise AttributeError
  end.

(** [o[i]] for an integer subscript. *)
Definition getitem (o : pyobj) (i : Z) : result pyobj :=
  match o with
  | PList items =>
      let n := Z.of_nat (length items) in
      let j := if i <? 0 then i + n else i in
      if (j <? 0) || (n <=? j) then Raise IndexError
      else match items !! Z.to_nat j with
           | Some v => Ok v
           | None => Raise IndexError
           end
  | PStr s =>
      let n := Z.of_nat (String.length s) in
      let j := if i <? 0 then i + n else i in
      if (j <? 0) || (n <=? j) then Raise IndexError
      else Ok (PStr (String.substring (Z.to_nat j) 1 s))
  | PDict entries =>
      match entries !! i with
      | Some v => Ok v
      | None => Raise KeyError
      end
  | PNone | PBool _ | PInt _ | PObject _ => Raise TypeError
  end.

(** ** The warnings channel and the effect monad *)

(** One call of [warnings.warn(message)]. *)
Record Warning : Type := UserWarning { message : string }.

(** A computation that may call [warn] and may raise: the warnings issued so
    far are threaded through, and survive an exception. *)
Definition Eff (A : Type) : Type := list Warning -> result A * list Warning.

#[global] Instance Eff_ret : MRet Eff := fun A a w => (Ok a, w).
#[global] Instance Eff_bind : MBind Eff := fun A B f m w =>
  match m w with
  | (Ok a, w') => f a w'
  | (Raise e, w') => (Raise e, w')
  end.

Definition warn (msg : string) : Eff unit :=
  fun w => (Ok tt, (w ++ [UserWarning msg])%list).

Definition lift {A : Type} (r : result A) : Eff A := fun w => (r, w).

(** ** Null-ordering policy *)

(** A SQLAlchemy dialect, as far as this module reads it. *)
Record Dialect : Type := mkDialect { name : string }.

Definition NULLS_LAST_FOR_ASC_BY_DEFAULT : gmap string bool :=
  list_to_map
    [ ("postgresql", true);
      ("oracle", true);
      ("mysql", false);
      ("mssql", false);
      ("sqlite", false) ].

(** [dialect.name]; on [None] the attribute is missing. *)
Definition dialect_name (dialect : option Dialect) : result string :=
  match dialect with
  | Some d => Ok (name d)
  | None => Raise AttributeError
  end.

(** [dialect and dialect.name or None]: a dialect object is truthy, the empty
    string is not. The result is the key handed to [dict.get]; [None] stands
    for Python's [None]. *)
Definition lookup_key (dialect : option Dialect) : option string :=
  match dialect with
  | None => None
  | Some d => if String.eqb (name d) "" then None else Some (name d)
  end.

(** [NULLS_LAST_FOR_ASC_BY_DEFAULT.get(key)]: no key of the table is [None]. *)
Definition table_get (key : option string) : option bool :=
  match key with
  | Some k => NULLS_LAST_FOR_ASC_BY_DEFAULT !! k
  | None => None
  end.

Definition unknown_dialect_message (dialect_name : string) : string :=
  "SQL dialect " ++ dialect_name ++ " is not known to sqlakeyset. "
  ++ "Assuming the same behaviour as MySQL/SQLite/MSSQL. "
  ++ "If any of your sort columns are nullable, "
  ++ "you may get results in the wrong order.".

Definition is_nulls_last_default (dialect : option Dialect) : Eff bool :=
  let v := table_get (lookup_key dialect) in
  match v with
  | None =>
      n ← lift (dialect_name dialect);
      _ ← warn (unknown_dialect_message n);
      mret false
  | Some v => mret v
  end.

(** ** SQL expressions *)

(** A column type. A plain [TypeEngine] has no [process_bind_param]
    attribute; a [TypeDecorator] defines it, as a function of the value and
    the dialect that returns the value to bind or raises. *)
Record TypeEngine : Type := mkType {
  type_name : string;
  process_bind_param : option (pyobj -> option Dialect -> result pyobj)
}.

(** The column or expression being ordered by, with its [.type]. *)
Record ColumnElement : Type := mkColumn {
  sql : string;
  type : TypeEngine
}.

(** What the builder puts in its output lists: plain Python values and
    SQLAlchemy clause elements. *)
Inductive term : Type :=
  | Py (v : pyobj)
  | Col (c : ColumnElement)
  | IsNone (c : ColumnElement)
  | Cast (v : pyobj) (ty : TypeEngine)
  | Case (whens : list (term * term)) (else_ : term).

(** ** Comparator-term builder *)

(** The [try]/[except AttributeError] around
    [columnexpr.type.process_bind_param]: the type's own processor, or the
    identity when the type has none. *)
Definition bind_processor (columnexpr : ColumnElement)
    : pyobj -> option Dialect -> result pyobj :=
  match process_bind_param (type columnexpr) with
  | Some p => p
  | None => fun v d => Ok v
  end.

Definition build_comparison (columnexpr : ColumnElement) (value : pyobj)
    (dialect : option Dialect) (nullslast : option bool) (ascending : bool)
    : Eff (list term * list term) :=
  nullslast ← match nullslast with
              | None => is_nulls_last_default dialect
              | Some b => mret b
              end;
  let processor := bind_processor columnexpr in
  value ← lift (processor value dialect);
  let BLANK := Cast (PStr "0") (type columnexpr) in
  let '(null, notnull) := if nullslast : bool then (1, 0) else (0, 1) in
  let flag_col := Case [(IsNone columnexpr, Py (PInt null))] (Py (PInt notnull)) in
  let flag_val := if is_None value then null else notnull in
  let val_col := Case [(IsNone columnexpr, BLANK)] (Col columnexpr) in
  let val_val := if is_None value then BLANK else Py value in
  let '(col, val) := ([flag_col; val_col], [Py (PInt flag_val); val_val]) in
  let '(col, val) := if negb ascending then (val, col) else (col, val) in
  mret (col, val).

(** ** Nullability advisor *)

(** The exceptions of [except (AttributeError, IndexError, KeyError)]. *)
Definition swallowed (e : exn) : bool :=
  match e with
  | AttributeError | IndexError | KeyError => true
  | TypeError | ValueError => false
  end.

(** The condition [not x.nullable or x.property.columns[0].nullable]; [or]
    evaluates its right operand only when the left one is false. *)
Definition nullable_condition (x : pyobj) : result bool :=
  nullable ← getattr x "nullable";
  if negb (truthy nullable) then mret true
  else
    property ← getattr x "property";
    columns ← getattr property "columns";
    column ← getitem columns 0;
    nullable0 ← getattr column "nullable";
    mret (truthy nullable0).

(** The value of the [try] statement is [Some r] when it executed [return r]
    and [None] when control goes on to the statement after it. *)
Definition _might_be_nullable (x : pyobj) : result bool :=
  returned ← try_except
    (cond ← nullable_condition x;
     mret (if cond : bool then Some true else None))
    swallowed
    (mret None);
  match returned with
  | Some r => mret r
  | None => mret false
  end.

(** ** Reading the builder's output *)

(** The builder returns [(col, val)]; for a descending column the two lists
    have been exchanged, so the pair built from the column expression is the
    first component when ascending and the second when descending. *)
Definition row_side (ascending : bool) (out : list term * list term) : list term :=
  if ascending then fst out else snd out.

Definition target_side (ascending : bool) (out : list term * list term) : list term :=
  if ascending then snd out else fst out.

(** The first statement of [build_comparison]: from the log [w], the
    nulls-last flag resolves to [b] and leaves the log [w']. *)
Definition resolves_to (nullslast : option bool) (dialect : option Dialect)
    (w : list Warning) (b : bool) (w' : list Warning) : Prop :=
  match nullslast with
  | Some b' => b = b' /\ w' = w
  | None => is_nulls_last_default dialect w = (Ok b, w')
  end.

(** ** Sample inputs *)

Definition postgresql : Dialect := mkDialect "postgresql".
Definition mysql : Dialect := mkDialect "mysql".
Definition unknownsql : Dialect := mkDialect "unknownsql".

Definition Integer : TypeEngine := mkType "INTEGER" None.

(** A decorator in the style of a JSON type: Python's [None] is bound as the
    JSON text [null]. *)
Definition JSONText : TypeEngine :=
  mkType "JSONTEXT"
    (Some (fun v _ => match v with
                      | PNone => Ok (PStr "null")
                      | PStr s => Ok (PStr s)
                      | _ => Raise TypeError
                      end)).

Definition age : ColumnElement := mkColumn "person.age" Integer.
Definition payload : ColumnElement := mkColumn "event.payload" JSONText.

(** An object with no attribute at all, and a mapped attribute whose
    [property.columns] is [None]. *)
Definition bare_descriptor : pyobj := PObject ∅.
Definition malformed_descriptor : pyobj :=
  PObject (<[ "nullable" := PBool true ]>
            {[ "property" := PObject {[ "columns" := PNone ]} ]}).

(** * Properties *)

(** ** Null-ordering policy *)

Ltac run_eff :=
  unfold mbind, mret, Eff_bind, Eff_ret, lift, warn; simpl.

Lemma table_get_lookup_key (d : Dialect) :
  table_get (lookup_key (Some d)) = NULLS_LAST_FOR_ASC_BY_DEFAULT !! name d.
Proof.
  unfold table_get, lookup_key.
  destruct (String.eqb_spec (name d) "") as [E | _]; [ | reflexivity ].
  rewrite E. reflexivity.
Qed.

Lemma is_nulls_last_default_known (d : Dialect) (b : bool) (w : list Warning) :
  NULLS_LAST_FOR_ASC_BY_DEFAULT !! name d = Some b ->
  is_nulls_last_default (Some d) w = (Ok b, w).
Proof.
  intros H. unfold is_nulls_last_default.
  rewrite table_get_lookup_key, H. reflexivity.
Qed.

Lemma is_nulls_last_default_unknown (d : Dialect) (w : list Warning) :
  NULLS_LAST_FOR_ASC_BY_DEFAULT !! name d = None ->
  is_nulls_last_default (Some d) w
  = (Ok false, (w ++ [UserWarning (unknown_dialect_message (name d))])%list).
Proof.
  intros H. unfold is_nulls_last_default.
  rewrite table_get_lookup_key, H. reflexivity.
Qed.

(** C1: for each of the five known engines the policy returns the documented
    boolean ([postgresql] and [oracle]: nulls last; [mysql], [mssql] and
    [sqlite]: nulls first), issues no warning, and the table has no other
    entry. *)
Theorem known_engines_documented_default (w : list Warning) :
  is_nulls_last_default (Some (mkDialect "postgresql")) w = (Ok true, w) /\
  is_nulls_last_default (Some (mkDialect "oracle")) w = (Ok true, w) /\
  is_nulls_last_default (Some (mkDialect "mysql")) w = (Ok false, w) /\
  is_nulls_last_default (Some (mkDialect "mssql")) w = (Ok false, w) /\
  is_nulls_last_default (Some (mkDialect "sqlite")) w = (Ok false, w) /\
  dom NULLS_LAST_FOR_ASC_BY_DEFAULT
  = {[ "postgresql"; "oracle"; "mysql"; "mssql"; "sqlite" ]}.
Proof.
  split_and!; try (apply is_nulls_last_default_known; reflexivity).
  unfold NULLS_LAST_FOR_ASC_BY_DEFAULT. simpl. rewrite !dom_insert_L. set_solver.
Qed.

(** C2: for a dialect whose name is not a key of the table, the policy
    returns false, appends exactly one warning to the log, and raises
    nothing. *)
Theorem unknown_engine_false_one_warning (d : Dialect) (w : list Warning) :
  NULLS_LAST_FOR_ASC_BY_DEFAULT !! name d = None ->
  is_nulls_last_default (Some d) w
  = (Ok false, (w ++ [UserWarning (unknown_dialect_message (name d))])%list).
Proof. apply is_nulls_last_default_unknown. Qed.

Lemma unknown_engine_false_one_warning_witness :
  NULLS_LAST_FOR_ASC_BY_DEFAULT !! name (mkDialect "made_up_engine") = None /\
  is_nulls_last_default (Some (mkDialect "made_up_engine")) []
  = (Ok false,
     [UserWarning
        ("SQL dialect made_up_engine is not known to sqlakeyset. "
         ++ "Assuming the same behaviour as MySQL/SQLite/MSSQL. "
         ++ "If any of your sort columns are nullable, "
         ++ "you may get results in the wrong order.")]).
Proof.
  split; [ reflexivity | ].
  apply (unknown_engine_false_one_warning (mkDialect "made_up_engine") []).
  reflexivity.
Defined.

(** C3: with no dialect ([dialect=None], the default) the lookup finds no
    entry, and formatting the warning reads [dialect.name] on [None]: the
    call raises [AttributeError], returns no boolean and issues no
    warning. *)
Theorem absent_dialect_raises_AttributeError (w : list Warning) :
  is_nulls_last_default None w = (Raise AttributeError, w).
Proof. reflexivity. Qed.

(** ** Comparator-term builder *)

(** What a call returns once the flag is resolved and the processor has
    returned. *)
Lemma build_comparison_Ok c v d nl asc w b w' v' :
  resolves_to nl d w b w' ->
  bind_processor c v d = Ok v' ->
  exists out,
    build_comparison c v d nl asc w = (Ok out, w') /\
    row_side asc out
    = [ Case [(IsNone c, Py (PInt (if b then 1 else 0)))]
             (Py (PInt (if b then 0 else 1)));
        Case [(IsNone c, Cast (PStr "0") (type c))] (Col c) ] /\
    target_side asc out
    = [ Py (PInt (if is_None v' then (if b then 1 else 0)
                  else (if b then 0 else 1)));
        if is_None v' then Cast (PStr "0") (type c) else Py v' ].
Proof.
  intros Hres Hproc. unfold build_comparison. run_eff.
  destruct nl as [b0 | ]; simpl in Hres;
    [ destruct Hres as [<- ->] | rewrite Hres ].
  all: rewrite Hproc; destruct b, asc; eexists; split_and!; reflexivity.
Qed.

Lemma build_comparison_Raise_processor c v d nl asc w b w' e :
  resolves_to nl d w b w' ->
  bind_processor c v d = Raise e ->
  build_comparison c v d nl asc w = (Raise e, w').
Proof.
  intros Hres Hproc. unfold build_comparison. run_eff.
  destruct nl as [b0 | ]; simpl in Hres;
    [ destruct Hres as [<- ->] | rewrite Hres ].
  all: by rewrite Hproc.
Qed.

Lemma build_comparison_Raise_policy c v d asc w w' e :
  is_nulls_last_default d w = (Raise e, w') ->
  build_comparison c v d None asc w = (Raise e, w').
Proof.
  intros Hpol. unfold build_comparison. run_eff. by rewrite Hpol.
Qed.

Lemma sides_determine_output (asc : bool) (o1 o2 : list term * list term) :
  row_side asc o1 = row_side asc o2 ->
  target_side asc o1 = target_side asc o2 ->
  o1 = o2.
Proof.
  destruct o1, o2, asc; simpl; congruence.
Qed.

(** C5: once the flag is resolved to [b] and the processor has returned,
    the builder uses the pair [(null, notnull)] = [(1, 0)] when [b] is true
    and [(0, 1)] when it is false: the row-side discriminator is
    [CASE WHEN c IS NULL THEN null ELSE notnull] and the target-side one is
    [null] or [notnull], with the same pair for both directions. *)
Theorem discriminator_pair_follows_null_placement c v d nl w b w' v' :
  resolves_to nl d w b w' ->
  bind_processor c v d = Ok v' ->
  exists null notnull : Z,
    (null, notnull) = (if b then (1, 0) else (0, 1)) /\
    forall asc : bool, exists out,
      build_comparison c v d nl asc w = (Ok out, w') /\
      row_side asc out !! 0%nat
      = Some (Case [(IsNone c, Py (PInt null))] (Py (PInt notnull))) /\
      target_side asc out !! 0%nat
      = Some (Py (PInt (if is_None v' then null else notnull))).
Proof.
  intros Hres Hproc.
  exists (if b then 1 else 0), (if b then 0 else 1). split; [ by destruct b | ].
  intros asc.
  destruct (build_comparison_Ok c v d nl asc w b w' v' Hres Hproc)
    as (out & Hrun & Hrow & Htarget).
  exists out. by rewrite Hrun, Hrow, Htarget.
Qed.

Lemma discriminator_pair_follows_null_placement_witness :
  exists null notnull : Z,
    (null, notnull) = (1, 0) /\
    forall asc : bool, exists out,
      build_comparison age (PInt 42) (Some postgresql) None asc [] = (Ok out, []) /\
      row_side asc out !! 0%nat
      = Some (Case [(IsNone age, Py (PInt null))] (Py (PInt notnull))) /\
      target_side asc out !! 0%nat = Some (Py (PInt notnull)).
Proof.
  apply (discriminator_pair_follows_null_placement
           age (PInt 42) (Some postgresql) None [] true [] (PInt 42));
    reflexivity.
Defined.

(** C6: for the same column, value, dialect and nulls-last argument, from
    the same log, the descending call returns the ascending call's two
    lists exchanged, and fails or warns exactly as the ascending call
    does. *)
Theorem descending_exchanges_ascending c v d nl w :
  build_comparison c v d nl false w
  = (let '(r, w') := build_comparison c v d nl true w in (prod_swap <$> r, w')).
Proof.
  unfold build_comparison. run_eff.
  destruct nl as [b | ]; [ | destruct (is_nulls_last_default d w) as [[b | e] w'] ];
    try reflexivity.
  all: destruct (bind_processor c v d) as [v' | e]; [ | reflexivity ].
  all: by destruct b.
Qed.

(** C7, as the code has it: when the reference value is null after bind
    processing (the type has no processor and the value is [None], or the
    processor returned [None]), the call returns, and the target-side pair
    is the null rank ([1] when nulls sort last, [0] otherwise) followed by
    the placeholder [CAST('0' AS type)]. *)
Theorem null_encoding_after_bind_processing c v d nl asc w b w' :
  resolves_to nl d w b w' ->
  bind_processor c v d = Ok PNone ->
  exists out,
    build_comparison c v d nl asc w = (Ok out, w') /\
    target_side asc out
    = [ Py (PInt (if b then 1 else 0)); Cast (PStr "0") (type c) ].
Proof.
  intros Hres Hproc.
  destruct (build_comparison_Ok c v d nl asc w b w' PNone Hres Hproc)
    as (out & Hrun & _ & Htarget).
  exists out. split; [ exact Hrun | exact Htarget ].
Qed.

Lemma null_encoding_after_bind_processing_witness :
  exists out,
    build_comparison age PNone (Some postgresql) None true [] = (Ok out, []) /\
    target_side true out = [ Py (PInt 1); Cast (PStr "0") Integer ].
Proof.
  apply (null_encoding_after_bind_processing
           age PNone (Some postgresql) None true [] true []);
    reflexivity.
Defined.

(** C7, as stated, fails: on a column whose type binds [None] as the text
    [null], a null reference value with nulls last yields the target-side
    pair [0, 'null'], not the null rank [1] and the placeholder. *)
Lemma null_reference_bound_to_text :
  exists out,
    build_comparison payload PNone (Some postgresql) (Some true) true []
    = (Ok out, []) /\
    target_side true out = [ Py (PInt 0); Py (PStr "null") ] /\
    target_side true out <> [ Py (PInt 1); Cast (PStr "0") (type payload) ].
Proof.
  eexists. split_and!; [ reflexivity | reflexivity | ].
  simpl. intros H. discriminate H.
Qed.

(** C9: with an explicit nulls-last argument [b] the policy is not run: for
    every dialect, known, unknown or absent, the log is left as it was, the
    only exception a call can raise is the bind processor's, and the ranks
    in the row-side discriminator are those of [b]. *)
Theorem explicit_nullslast_skips_policy c v (d : option Dialect) (b : bool) asc w :
  exists r,
    build_comparison c v d (Some b) asc w = (r, w) /\
    match r with
    | Ok out =>
        row_side asc out !! 0%nat
        = Some (Case [(IsNone c, Py (PInt (if b then 1 else 0)))]
                     (Py (PInt (if b then 0 else 1))))
    | Raise e => bind_processor c v d = Raise e
    end.
Proof.
  assert (resolves_to (Some b) d w b w) as Hres by done.
  destruct (bind_processor c v d) as [v' | e] eqn:Hproc.
  - destruct (build_comparison_Ok c v d (Some b) asc w b w v' Hres Hproc)
      as (out & Hrun & Hrow & _).
    exists (Ok out). by rewrite Hrun, Hrow.
  - exists (Raise e). split; [ | done ].
    by apply (build_comparison_Raise_processor c v d (Some b) asc w b w e).
Qed.

(** C10: when the column type has a bind processor [p], the target-side
    pair is decided by [p]'s result [v'], not by the value passed in: the
    discriminator is the null rank and the value the placeholder exactly
    when [v'] is [None]. In particular a null reference value that [p] maps
    to a non-null one gets the non-null rank. *)
Theorem null_check_after_bind_processing c p v d nl asc w b w' v' :
  process_bind_param (type c) = Some p ->
  resolves_to nl d w b w' ->
  p v d = Ok v' ->
  exists out,
    build_comparison c v d nl asc w = (Ok out, w') /\
    target_side asc out
    = [ Py (PInt (if is_None v' then (if b then 1 else 0)
                  else (if b then 0 else 1)));
        if is_None v' then Cast (PStr "0") (type c) else Py v' ] /\
    (is_None v = true -> is_None v' = false ->
     target_side asc out !! 0%nat = Some (Py (PInt (if b then 0 else 1)))).
Proof.
  intros Hp Hres Hrun.
  assert (bind_processor c v d = Ok v') as Hproc.
  { unfold bind_processor. by rewrite Hp. }
  destruct (build_comparison_Ok c v d nl asc w b w' v' Hres Hproc)
    as (out & Hbuild & _ & Htarget).
  exists out. split_and!; [ done | done | ].
  intros _ Hnot. by rewrite Htarget, Hnot.
Qed.

Lemma null_check_after_bind_processing_witness :
  exists out,
    build_comparison payload PNone (Some mysql) (Some true) false []
    = (Ok out, []) /\
    target_side false out = [ Py (PInt 0); Py (PStr "null") ] /\
    (is_None PNone = true -> is_None (PStr "null") = false ->
     target_side false out !! 0%nat = Some (Py (PInt 0))).
Proof.
  apply (null_check_after_bind_processing payload
           (fun v _ => match v with
                       | PNone => Ok (PStr "null")
                       | PStr s => Ok (PStr s)
                       | _ => Raise TypeError
                       end)
           PNone (Some mysql) (Some true) false [] true [] (PStr "null"));
    [ reflexivity | split; reflexivity | reflexivity ].
Defined.

(** ** Nullability advisor *)

(** The advisor returns [True] exactly when the condition holds; a swallowed
    exception or a false condition both end in [return False]. *)
Lemma might_be_nullable_outcome (x : pyobj) :
  _might_be_nullable x
  = match nullable_condition x with
    | Ok cond => Ok cond
    | Raise e => if swallowed e then Ok false else Raise e
    end.
Proof.
  unfold _might_be_nullable, try_except, mbind, mret, result_bind, result_ret.
  destruct (nullable_condition x) as [[ | ] | e]; [ done | done | ].
  by destruct (swallowed e).
Qed.

Lemma missing_nullable_condition (x : pyobj) :
  getattr x "nullable" = Raise AttributeError ->
  nullable_condition x = Raise AttributeError.
Proof.
  intros H. unfold nullable_condition. by rewrite H.
Qed.

(** An exception leaves the advisor only when the condition raised it and
    the [except] clause does not list it. *)
Lemma might_be_nullable_raises (x : pyobj) (e : exn) :
  _might_be_nullable x = Raise e <->
  nullable_condition x = Raise e /\ swallowed e = false.
Proof.
  rewrite might_be_nullable_outcome.
  destruct (nullable_condition x) as [cond | e'].
  - split; [ discriminate | intros [H _]; discriminate H ].
  - destruct (swallowed e') eqn:Hs; split.
    + discriminate.
    + intros [[= ->] H]. congruence.
    + intros [= ->]. done.
    + intros [[= ->] _]. done.
Qed.

(** C4, as the code has it: when reading the nullability metadata raises
    [AttributeError], [IndexError] or [KeyError], the advisor returns false
    and raises nothing; in particular it returns false on a descriptor with
    no [nullable] attribute. *)
Theorem inspection_failure_returns_false (x : pyobj) :
  getattr x "nullable" = Raise AttributeError \/
  (exists e, nullable_condition x = Raise e /\ swallowed e = true) ->
  _might_be_nullable x = Ok false.
Proof.
  intros [Hmissing | (e & Hcond & Hs)]; rewrite might_be_nullable_outcome.
  - by rewrite (missing_nullable_condition x Hmissing).
  - by rewrite Hcond, Hs.
Qed.

Lemma inspection_failure_returns_false_witness :
  _might_be_nullable (PObject {[ "name" := PStr "id" ]}) = Ok false.
Proof.
  apply (inspection_failure_returns_false (PObject {[ "name" := PStr "id" ]})).
  left. reflexivity.
Defined.

(** C4, as stated, fails: a descriptor with no attribute at all gets the
    answer false, not true; and a descriptor whose [property.columns] is
    [None] makes the advisor raise [TypeError]. *)
Lemma bare_descriptor_not_nullable :
  getattr bare_descriptor "nullable" = Raise AttributeError /\
  _might_be_nullable bare_descriptor = Ok false /\
  _might_be_nullable malformed_descriptor = Raise TypeError.
Proof. split_and!; reflexivity. Qed.

(** * Further properties of the module *)

(** ** Null-ordering policy *)

Lemma is_nulls_last_default_on_object (d : Dialect) (w : list Warning) :
  is_nulls_last_default (Some d) w
  = (Ok (default false (NULLS_LAST_FOR_ASC_BY_DEFAULT !! name d)),
     match NULLS_LAST_FOR_ASC_BY_DEFAULT !! name d with
     | Some _ => w
     | None => (w ++ [UserWarning (unknown_dialect_message (name d))])%list
     end).
Proof.
  destruct (NULLS_LAST_FOR_ASC_BY_DEFAULT !! name d) as [b | ] eqn:E; simpl.
  - by apply is_nulls_last_default_known.
  - by apply is_nulls_last_default_unknown.
Qed.

(** For a dialect object the policy always returns: the table's entry, or
    false for a name the table does not have; it warns in the second case
    only. *)
Theorem policy_total_on_dialect_objects (d : Dialect) (w : list Warning) :
  is_nulls_last_default (Some d) w
  = (Ok (default false (NULLS_LAST_FOR_ASC_BY_DEFAULT !! name d)),
     match NULLS_LAST_FOR_ASC_BY_DEFAULT !! name d with
     | Some _ => w
     | None => (w ++ [UserWarning (unknown_dialect_message (name d))])%list
     end).
Proof. apply is_nulls_last_default_on_object. Qed.

Lemma table_true_entries (k : string) :
  NULLS_LAST_FOR_ASC_BY_DEFAULT !! k = Some true ->
  k = "postgresql" \/ k = "oracle".
Proof.
  unfold NULLS_LAST_FOR_ASC_BY_DEFAULT. simpl. intros H.
  repeat match type of H with
         | <[ ?k' := _ ]> _ !! _ = _ =>
             let Hne := fresh "Hne" in
             destruct (decide (k' = k)) as [<- | Hne];
             [ rewrite lookup_insert_eq in H
             | rewrite lookup_insert_ne in H by exact Hne ]
         end; try discriminate H; auto.
Qed.

(** The policy answers "nulls last" for PostgreSQL and Oracle only, and
    never with a warning. *)
Theorem nulls_last_only_for_postgresql_and_oracle
    (dialect : option Dialect) (w w' : list Warning) :
  is_nulls_last_default dialect w = (Ok true, w') ->
  exists d, dialect = Some d /\
            (name d = "postgresql" \/ name d = "oracle") /\ w' = w.
Proof.
  destruct dialect as [d | ]; [ | discriminate ].
  rewrite is_nulls_last_default_on_object.
  destruct (NULLS_LAST_FOR_ASC_BY_DEFAULT !! name d) as [b | ] eqn:E; simpl;
    [ | discriminate ].
  intros [= -> <-]. exists d. split_and!; [ done | | done ].
  by apply table_true_entries.
Qed.

Lemma nulls_last_only_for_postgresql_and_oracle_witness :
  exists d, Some (mkDialect "oracle") = Some d /\
            (name d = "postgresql" \/ name d = "oracle") /\
            [UserWarning "earlier"] = [UserWarning "earlier"].
Proof.
  apply (nulls_last_only_for_postgresql_and_oracle
           (Some (mkDialect "oracle")) [UserWarning "earlier"]
           [UserWarning "earlier"]).
  reflexivity.
Defined.

(** ** Comparator-term builder *)

(** A call that returns has resolved the flag and got a value from the
    processor. *)
Lemma build_comparison_Ok_inv c v d nl asc w out w' :
  build_comparison c v d nl asc w = (Ok out, w') ->
  exists b v', resolves_to nl d w b w' /\ bind_processor c v d = Ok v'.
Proof.
  intros Hrun.
  assert ((exists b w1, resolves_to nl d w b w1) \/
          (exists e w1, nl = None /\ is_nulls_last_default d w = (Raise e, w1)))
    as [(b & w1 & Hres) | (e & w1 & -> & Hpol)].
  { destruct nl as [b | ]; [ left; by exists b, w | ].
    destruct (is_nulls_last_default d w) as [[b | e] w1] eqn:E.
    - left. by exists b, w1.
    - right. by exists e, w1. }
  - destruct (bind_processor c v d) as [v' | e] eqn:Hproc.
    + destruct (build_comparison_Ok c v d nl asc w b w1 v' Hres Hproc)
        as (out' & Hrun' & _).
      rewrite Hrun in Hrun'. injection Hrun' as _ ->. by exists b, v'.
    + rewrite (build_comparison_Raise_processor c v d nl asc w b w1 e Hres Hproc)
        in Hrun.
      discriminate Hrun.
  - rewrite (build_comparison_Raise_policy c v d asc w w1 e Hpol) in Hrun.
    discriminate Hrun.
Qed.

(** Every call that returns yields two lists of exactly two terms each, a
    discriminator followed by a value, whatever the direction. *)
Theorem output_lists_have_two_terms c v d nl asc w col val w' :
  build_comparison c v d nl asc w = (Ok (col, val), w') ->
  length col = 2%nat /\ length val = 2%nat.
Proof.
  intros Hrun.
  destruct (build_comparison_Ok_inv _ _ _ _ _ _ _ _ Hrun) as (b & v' & Hres & Hproc).
  destruct (build_comparison_Ok c v d nl asc w b w' v' Hres Hproc)
    as (out & Hrun' & Hrow & Htarget).
  rewrite Hrun in Hrun'. injection Hrun' as <-.
  destruct asc; simpl in Hrow, Htarget; by rewrite Hrow, Htarget.
Qed.

Lemma output_lists_have_two_terms_witness :
  exists col val,
    build_comparison payload PNone (Some unknownsql) None false [] =
      (Ok (col, val), [UserWarning (unknown_dialect_message "unknownsql")]) /\
    length col = 2%nat /\ length val = 2%nat.
Proof.
  eexists _, _. split; [ reflexivity | ].
  eapply (output_lists_have_two_terms payload PNone (Some unknownsql) None false []).
  reflexivity.
Defined.



(** The policy runs before the bind processor: when the dialect is unknown,
    no nulls-last argument is given and the processor raises, the call
    raises the processor's exception and the warning has been issued all
    the same. *)
Theorem warning_precedes_processor_failure c v (d : Dialect) asc w e :
  NULLS_LAST_FOR_ASC_BY_DEFAULT !! name d = None ->
  bind_processor c v (Some d) = Raise e ->
  build_comparison c v (Some d) None asc w
  = (Raise e, (w ++ [UserWarning (unknown_dialect_message (name d))])%list).
Proof.
  intros Hunknown Hproc.
  apply (build_comparison_Raise_processor c v (Some d) None asc w false); [ | done ].
  by apply is_nulls_last_default_unknown.
Qed.

Lemma warning_precedes_processor_failure_witness :
  build_comparison payload (PInt 7) (Some unknownsql) None true []
  = (Raise TypeError, [UserWarning (unknown_dialect_message "unknownsql")]).
Proof.
  apply (warning_precedes_processor_failure payload (PInt 7) unknownsql true []);
    reflexivity.
Defined.

(** Without a dialect and without a nulls-last argument the builder fails
    with the policy's [AttributeError] before the bind processor is run, for
    every column, value and direction. *)
Theorem builder_needs_dialect_or_nullslast c v asc w :
  build_comparison c v None None asc w = (Raise AttributeError, w).
Proof. by apply build_comparison_Raise_policy. Qed.

(** Leaving the nulls-last argument out for a dialect of the table is the
    same as passing the table's entry. *)
Theorem default_equals_explicit_table_entry c v (d : Dialect) (b : bool) asc w :
  NULLS_LAST_FOR_ASC_BY_DEFAULT !! name d = Some b ->
  build_comparison c v (Some d) None asc w
  = build_comparison c v (Some d) (Some b) asc w.
Proof.
  intros Hknown. unfold build_comparison. run_eff.
  by rewrite (is_nulls_last_default_known d b w Hknown).
Qed.

Lemma default_equals_explicit_table_entry_witness :
  build_comparison age (PInt 42) (Some postgresql) None false []
  = build_comparison age (PInt 42) (Some postgresql) (Some true) false [].
Proof.
  apply (default_equals_explicit_table_entry age (PInt 42) postgresql true false []).
  reflexivity.
Defined.

(** For a dialect the table does not have, leaving the nulls-last argument
    out is the same as passing false, after one warning. *)
Theorem unknown_dialect_equals_explicit_false c v (d : Dialect) asc w :
  NULLS_LAST_FOR_ASC_BY_DEFAULT !! name d = None ->
  build_comparison c v (Some d) None asc w
  = build_comparison c v (Some d) (Some false) asc
      (w ++ [UserWarning (unknown_dialect_message (name d))])%list.
Proof.
  intros Hunknown. unfold build_comparison. run_eff.
  by rewrite (is_nulls_last_default_unknown d w Hunknown).
Qed.

Lemma unknown_dialect_equals_explicit_false_witness :
  build_comparison age PNone (Some unknownsql) None true []
  = build_comparison age PNone (Some unknownsql) (Some false) true
      ([] ++ [UserWarning (unknown_dialect_message (name unknownsql))])%list.
Proof.
  apply (unknown_dialect_equals_explicit_false age PNone unknownsql true []).
  reflexivity.
Defined.



(** On a column whose type has no bind processor, a call with an explicit
    nulls-last argument always returns, issues no warning, passes a non-null
    reference value through unchanged, and does not depend on the dialect at
    all. *)
Theorem plain_type_explicit_flag_total c v (d : option Dialect) (b : bool) asc w :
  process_bind_param (type c) = None ->
  exists out,
    (forall d' : option Dialect,
       build_comparison c v d' (Some b) asc w = (Ok out, w)) /\
    target_side asc out
    = [ Py (PInt (if is_None v then (if b then 1 else 0)
                  else (if b then 0 else 1)));
        if is_None v then Cast (PStr "0") (type c) else Py v ].
Proof.
  intros Hplain.
  assert (forall d', bind_processor c v d' = Ok v) as Hproc.
  { intros d'. unfold bind_processor. by rewrite Hplain. }
  destruct (build_comparison_Ok c v d (Some b) asc w b w v
              (conj eq_refl eq_refl) (Hproc d))
    as (out & Hrun & Hrow & Htarget).
  exists out. split; [ | done ].
  intros d'.
  destruct (build_comparison_Ok c v d' (Some b) asc w b w v
              (conj eq_refl eq_refl) (Hproc d'))
    as (out' & Hrun' & Hrow' & Htarget').
  rewrite Hrun'. do 2 f_equal.
  apply (sides_determine_output asc); congruence.
Qed.

Lemma plain_type_explicit_flag_total_witness :
  exists out,
    (forall d' : option Dialect,
       build_comparison age (PInt 42) d' (Some false) false [] = (Ok out, [])) /\
    target_side false out = [ Py (PInt 1); Py (PInt 42) ].
Proof.
  apply (plain_type_explicit_flag_total age (PInt 42) None false false []).
  reflexivity.
Defined.

(** ** Nullability advisor *)

(** [not x.nullable] decides first: a descriptor whose [nullable] attribute
    is false gets the answer true, and nothing else of it is read (its
    [property] may be missing or malformed). *)
Theorem falsy_nullable_answers_true (attrs : gmap string pyobj) (n : pyobj) :
  attrs !! "nullable" = Some n ->
  truthy n = false ->
  _might_be_nullable (PObject attrs) = Ok true.
Proof.
  intros Hn Hfalse. rewrite might_be_nullable_outcome.
  unfold nullable_condition, getattr. rewrite Hn. simpl. by rewrite Hfalse.
Qed.

Lemma falsy_nullable_answers_true_witness :
  _might_be_nullable
    (PObject (<[ "nullable" := PBool false ]> {[ "property" := PInt 3 ]}))
  = Ok true.
Proof.
  apply (falsy_nullable_answers_true _ (PBool false)); reflexivity.
Defined.

(** A plain column, which has [nullable] but no [property], gets the answer
    false when its [nullable] attribute is true: the missing [property] is
    swallowed. *)
Theorem truthy_nullable_without_property_answers_false
    (attrs : gmap string pyobj) (n : pyobj) :
  attrs !! "nullable" = Some n ->
  truthy n = true ->
  attrs !! "property" = None ->
  _might_be_nullable (PObject attrs) = Ok false.
Proof.
  intros Hn Htrue Hprop. rewrite might_be_nullable_outcome.
  unfold nullable_condition, getattr. rewrite Hn. simpl.
  by rewrite Htrue, Hprop.
Qed.

Lemma truthy_nullable_without_property_answers_false_witness :
  _might_be_nullable (PObject {[ "nullable" := PBool true ]}) = Ok false.
Proof.
  apply (truthy_nullable_without_property_answers_false _ (PBool true));
    reflexivity.
Defined.

Lemma getattr_raises (o : pyobj) (k : string) (e : exn) :
  getattr o k = Raise e -> e = AttributeError.
Proof.
  destruct o; simpl; try (by intros [= <-]).
  destruct (attrs !! k); [ discriminate | by intros [= <-] ].
Qed.

(** A mapped attribute whose own [nullable] is true gets the truth value of
    [nullable] on the first of [property.columns]; with an empty column list
    the answer is false. *)
Theorem mapped_attribute_follows_first_column
    (attrs pattrs : gmap string pyobj) (n : pyobj) (columns : list pyobj) :
  attrs !! "nullable" = Some n ->
  truthy n = true ->
  attrs !! "property" = Some (PObject pattrs) ->
  pattrs !! "columns" = Some (PList columns) ->
  _might_be_nullable (PObject attrs)
  = match columns with
    | [] => Ok false
    | column :: _ =>
        match getattr column "nullable" with
        | Ok n0 => Ok (truthy n0)
        | Raise _ => Ok false
        end
    end.
Proof.
  intros Hn Htrue Hprop Hcols. rewrite might_be_nullable_outcome.
  assert (getattr (PObject attrs) "nullable" = Ok n) as En
    by (simpl; by rewrite Hn).
  assert (getattr (PObject attrs) "property" = Ok (PObject pattrs)) as Ep
    by (simpl; by rewrite Hprop).
  assert (getattr (PObject pattrs) "columns" = Ok (PList columns)) as Ec
    by (simpl; by rewrite Hcols).
  unfold nullable_condition, mbind, result_bind, mret, result_ret.
  rewrite En, Htrue, Ep, Ec. cbn [negb].
  destruct columns as [ | column rest ]; [ done | ].
  assert (getitem (PList (column :: rest)) 0 = Ok column) as ->.
  { unfold getitem. simpl length.
    replace (0 <? 0) with false by done.
    replace ((0 <? 0) || (Z.of_nat (S (length rest)) <=? 0)) with false; [ done | ].
    symmetry. apply orb_false_iff. split; [ done | ]. apply Z.leb_gt. lia. }
  destruct (getattr column "nullable") as [n0 | e] eqn:E; [ done | ].
  by apply getattr_raises in E as ->.
Qed.

Lemma mapped_attribute_follows_first_column_witness :
  _might_be_nullable
    (PObject (<[ "nullable" := PBool true ]>
               {[ "property" :=
                    PObject {[ "columns" :=
                      PList [ PObject {[ "nullable" := PBool true ]} ] ]} ]}))
  = Ok true.
Proof.
  exact (mapped_attribute_follows_first_column
           (<[ "nullable" := PBool true ]>
              {[ "property" :=
                   PObject {[ "columns" :=
                     PList [ PObject {[ "nullable" := PBool true ]} ] ]} ]})
           {[ "columns" := PList [ PObject {[ "nullable" := PBool true ]} ] ]}
           (PBool true)
           [ PObject {[ "nullable" := PBool true ]} ]
           eq_refl eq_refl eq_refl eq_refl).
Defined.

(** [TypeError] is not in the [except] clause: when [nullable] is true and
    [property.columns] is [None], a boolean, an integer or a plain object,
    none of which can be subscripted, the advisor raises [TypeError]
    instead of answering. *)
Theorem unsubscriptable_columns_raise_TypeError
    (attrs pattrs : gmap string pyobj) (n columns : pyobj) :
  attrs !! "nullable" = Some n ->
  truthy n = true ->
  attrs !! "property" = Some (PObject pattrs) ->
  pattrs !! "columns" = Some columns ->
  match columns with
  | PNone | PBool _ | PInt _ | PObject _ => True
  | PStr _ | PList _ | PDict _ => False
  end ->
  _might_be_nullable (PObject attrs) = Raise TypeError.
Proof.
  intros Hn Htrue Hprop Hcols Hshape. rewrite might_be_nullable_outcome.
  assert (getattr (PObject attrs) "nullable" = Ok n) as En
    by (simpl; by rewrite Hn).
  assert (getattr (PObject attrs) "property" = Ok (PObject pattrs)) as Ep
    by (simpl; by rewrite Hprop).
  assert (getattr (PObject pattrs) "columns" = Ok columns) as Ec
    by (simpl; by rewrite Hcols).
  unfold nullable_condition, mbind, result_bind, mret, result_ret.
  rewrite En, Htrue, Ep, Ec. cbn [negb].
  by destruct columns.
Qed.

Lemma unsubscriptable_columns_raise_TypeError_witness :
  _might_be_nullable malformed_descriptor = Raise TypeError.
Proof.
  exact (unsubscriptable_columns_raise_TypeError
           (<[ "nullable" := PBool true ]>
              {[ "property" := PObject {[ "columns" := PNone ]} ]})
           {[ "columns" := PNone ]} (PBool true) PNone
           eq_refl eq_refl eq_refl eq_refl I).
Defined.
